(** * Marketing ROI analysis: the metrics aggregation and the budget plan

    A shallow embedding of [roi_calculator.py] (class [MarketingROIAnalyzer]).
    The analyzer holds a data frame of campaign rows and a dictionary of
    per-channel metrics; [calculate_roi_metrics] fills the dictionary,
    [identify_optimization_opportunities] reads it and derives a budget plan,
    [generate_recommendations] runs both and derives the report figures.

    The program text is written once, over an interface of the arithmetic it
    uses.  Two instances follow: [binary64], IEEE 754 double precision, which
    is what pandas computes with (the numeric columns are read as [float64];
    a division by zero gives an infinity or NaN and raises nothing), and
    [exact], the same operations on rationals without rounding.  Statements
    about the program are about the [binary64] instance unless they say
    otherwise.

    Printing and plotting are left out: [generate_recommendations] is modelled
    by the figures it prints and the frame it returns. *)

From Stdlib Require Import ZArith QArith Qcanon List Bool String Lia.
From Stdlib Require Import Permutation Sorted Uint63 Floats.
Import ListNotations.

Set Implicit Arguments.

(** ** The arithmetic the program uses *)

Declare Scope num_scope.
Delimit Scope num_scope with num.

(** Numeric literals, the four operations, the strict comparison and the
    missing-value test ([pandas.isna]). *)
Class Arith (num : Type) : Type := {
  num_lit : Z -> num;
  num_add : num -> num -> num;
  num_sub : num -> num -> num;
  num_mul : num -> num -> num;
  num_div : num -> num -> num;
  num_lt : num -> num -> bool;
  num_isna : num -> bool
}.

Infix "+" := num_add : num_scope.
Infix "-" := num_sub : num_scope.
Infix "*" := num_mul : num_scope.
Infix "/" := num_div : num_scope.
Infix "<?" := num_lt : num_scope.
Notation "x >? y" := (num_lt y x) (at level 70, no associativity) : num_scope.

(** *** IEEE 754 binary64 *)

Definition float_of_Z (z : Z) : float :=
  match z with
  | Z0 => PrimFloat.zero
  | Zpos _ => PrimFloat.of_uint63 (Uint63.of_Z z)
  | Zneg p => PrimFloat.opp (PrimFloat.of_uint63 (Uint63.of_Z (Zpos p)))
  end.

#[export] Instance binary64 : Arith float := {|
  num_lit := float_of_Z;
  num_add := PrimFloat.add;
  num_sub := PrimFloat.sub;
  num_mul := PrimFloat.mul;
  num_div := PrimFloat.div;
  num_lt := PrimFloat.ltb;
  num_isna := PrimFloat.is_nan
|}.

(** *** Exact rationals, with the IEEE special values

    Finite values are rationals in lowest terms and are never rounded; a
    division by zero gives an infinity, or NaN for 0/0, as in IEEE 754 (there
    is one zero, which counts as positive). *)
Inductive exact : Type :=
| XFin (q : Qc)
| XInf (negative : bool)
| XNaN.

Definition Qc_negative (q : Qc) : bool :=
  match Qccompare q 0%Qc with Lt => true | _ => false end.

Definition Qc_is_zero (q : Qc) : bool :=
  match Qccompare q 0%Qc with Eq => true | _ => false end.

Definition exact_add (x y : exact) : exact :=
  match x, y with
  | XNaN, _ | _, XNaN => XNaN
  | XInf a, XInf b => if Bool.eqb a b then x else XNaN
  | XInf _, XFin _ => x
  | XFin _, XInf _ => y
  | XFin p, XFin q => XFin (p + q)%Qc
  end.

Definition exact_opp (x : exact) : exact :=
  match x with
  | XFin q => XFin (- q)%Qc
  | XInf s => XInf (negb s)
  | XNaN => XNaN
  end.

Definition exact_sub (x y : exact) : exact := exact_add x (exact_opp y).

Definition exact_mul (x y : exact) : exact :=
  match x, y with
  | XNaN, _ | _, XNaN => XNaN
  | XInf a, XInf b => XInf (xorb a b)
  | XInf a, XFin q => if Qc_is_zero q then XNaN else XInf (xorb a (Qc_negative q))
  | XFin p, XInf b => if Qc_is_zero p then XNaN else XInf (xorb (Qc_negative p) b)
  | XFin p, XFin q => XFin (p * q)%Qc
  end.

Definition exact_div (x y : exact) : exact :=
  match x, y with
  | XNaN, _ | _, XNaN => XNaN
  | XInf _, XInf _ => XNaN
  | XInf a, XFin q => XInf (xorb a (Qc_negative q))
  | XFin _, XInf _ => XFin 0%Qc
  | XFin p, XFin q =>
      if Qc_is_zero q then (if Qc_is_zero p then XNaN else XInf (Qc_negative p))
      else XFin (p / q)%Qc
  end.

Definition exact_lt (x y : exact) : bool :=
  match x, y with
  | XNaN, _ | _, XNaN => false
  | XInf a, XInf b => a && negb b
  | XInf a, XFin _ => a
  | XFin _, XInf b => negb b
  | XFin p, XFin q => match Qccompare p q with Lt => true | _ => false end
  end.

Definition exact_isna (x : exact) : bool :=
  match x with XNaN => true | _ => false end.

#[export] Instance exact_arith : Arith exact := {|
  num_lit := fun z => XFin (Q2Qc (inject_Z z));
  num_add := exact_add;
  num_sub := exact_sub;
  num_mul := exact_mul;
  num_div := exact_div;
  num_lt := exact_lt;
  num_isna := exact_isna
|}.

(** ** The pandas operations the program calls *)

Section Pandas.
Context {num : Type} {A : Arith num}.
Local Open Scope num_scope.

Definition notna (x : num) : bool := negb (num_isna x).

(** [Series.sum()]: missing values are skipped ([skipna=True]), the sum of
    nothing is 0, and the values are added from the first to the last. *)
Definition pd_sum (column : list num) : num :=
  fold_left num_add (filter notna column) (num_lit 0).

Variable R : Type.
Variable by_ : R -> num.

(** Whether the row [y] must come strictly before [x]. *)
Definition strictly_before (ascending : bool) (y x : R) : bool :=
  if ascending then by_ y <? by_ x else by_ x <? by_ y.

(** [a] may stand before [b]: [b] does not have to come strictly first.  With
    [ascending = false] this reads: the key of [a] is not less than that of
    [b]. *)
Definition in_order (ascending : bool) (a b : R) : Prop :=
  strictly_before ascending b a = false.

Fixpoint insert_row (ascending : bool) (x : R) (rows : list R) : list R :=
  match rows with
  | [] => [x]
  | y :: rest =>
      if strictly_before ascending y x then y :: insert_row ascending x rest
      else x :: rows
  end.

(** The rows in key order.  The sort is taken to be stable: rows with equal
    keys keep their order, the first occurrence first.  pandas documents this
    for [nlargest] and [nsmallest] ([keep='first']); numpy's default sort,
    which [sort_values] calls, does not promise an order for equal keys, and
    the model gives it this one. *)
Fixpoint stable_sort (ascending : bool) (rows : list R) : list R :=
  match rows with
  | [] => []
  | x :: rest => insert_row ascending x (stable_sort ascending rest)
  end.

(** [DataFrame.sort_values(by, ascending=...)]: the rows whose key is present
    in key order, then the rows whose key is missing ([na_position='last']). *)
Definition sort_values (ascending : bool) (frame : list R) : list R :=
  stable_sort ascending (filter (fun r => notna (by_ r)) frame)
  ++ filter (fun r => num_isna (by_ r)) frame.

(** [DataFrame.nlargest(n, by)] and [DataFrame.nsmallest(n, by)], with the
    default [keep='first']. *)
Definition nlargest (n : nat) (frame : list R) : list R :=
  firstn n (sort_values false frame).

Definition nsmallest (n : nat) (frame : list R) : list R :=
  firstn n (sort_values true frame).

End Pandas.

(** [Series.unique()]: the distinct values in order of first appearance. *)
Fixpoint unique (values : list string) : list string :=
  match values with
  | [] => []
  | v :: rest => v :: filter (fun w => negb (String.eqb w v)) (unique rest)
  end.

(** [precedes a b l]: some occurrence of [a] in [l] comes before some
    occurrence of [b]. *)
Inductive precedes {T : Type} (a b : T) : list T -> Prop :=
| precedes_here : forall l, In b l -> precedes a b (a :: l)
| precedes_later : forall x l, precedes a b l -> precedes a b (x :: l).

(** ** The data *)

(** One row of the campaign data (the columns of the CSV file). *)
Module Campaign.
Record t (num : Type) : Type := make {
  Channel : string;
  Spend : num;
  Revenue : num;
  Clicks : num;
  Conversions : num;
  Impressions : num
}.
Arguments make {num}.
Arguments Channel {num}.
Arguments Spend {num}.
Arguments Revenue {num}.
Arguments Clicks {num}.
Arguments Conversions {num}.
Arguments Impressions {num}.
End Campaign.

(** [self.df[self.df['Channel'] == channel]]: the rows of one channel. *)
Definition group_of {num : Type} (rows : list (Campaign.t num)) (channel : string)
  : list (Campaign.t num) :=
  filter (fun r => String.eqb (Campaign.Channel r) channel) rows.

(** The value [results[channel]] of [calculate_roi_metrics]. *)
Record ChannelMetrics (num : Type) : Type := {
  TotalSpend : num;
  TotalRevenue : num;
  ROI : num;
  CAC : num;
  ConversionRate : num;
  ROMI : num;
  Conversions : num;
  Clicks : num;
  Impressions : num
}.

(** A row of the frame [identify_optimization_opportunities] returns: the
    metrics columns and the four columns it adds. *)
Record PlanRow (num : Type) : Type := {
  metrics : ChannelMetrics num;
  OptimalAllocation : num;
  CurrentRevenue : num;
  ExpectedRevenue : num;
  RevenueIncrease : num
}.

(** A frame indexed by channel, in row order. *)
Definition Frame (row : Type) : Type := list (string * row).

Definition column {row num : Type} (f : row -> num) (frame : Frame row) : list num :=
  map (fun entry => f (snd entry)) frame.

Definition index {row : Type} (frame : Frame row) : list string := map fst frame.

(** The analyzer object: [self.df] and [self.channel_metrics]. *)
Record Analyzer (num : Type) : Type := {
  df : list (Campaign.t num);
  channel_metrics : Frame (ChannelMetrics num)
}.

(** [MarketingROIAnalyzer(data_path)], with the rows read from the file. *)
Definition init {num : Type} (rows : list (Campaign.t num)) : Analyzer num :=
  {| df := rows; channel_metrics := [] |}.

(** ** Calls that may raise *)

Inductive exn : Type :=
| KeyError (key : string).

Inductive outcome (A : Type) : Type :=
| Returned (a : A)
| Raised (e : exn).
Arguments Returned {A}.
Arguments Raised {A}.

(** A method of the analyzer: from the object to a result and the object
    afterwards, or an exception. *)
Definition Method (num A : Type) : Type := Analyzer num -> outcome (A * Analyzer num).

Definition ret {num A : Type} (a : A) : Method num A :=
  fun self => Returned (a, self).

Definition bind {num A B : Type} (m : Method num A) (k : A -> Method num B) : Method num B :=
  fun self =>
    match m self with
    | Returned (a, self') => k a self'
    | Raised e => Raised e
    end.

Definition raise {num A : Type} (e : exn) : Method num A :=
  fun _ => Raised e.

Definition get_channel_metrics {num : Type} : Method num (Frame (ChannelMetrics num)) :=
  fun self => Returned (channel_metrics self, self).

Definition set_channel_metrics {num : Type} (results : Frame (ChannelMetrics num))
  : Method num unit :=
  fun self => Returned (tt, {| df := df self; channel_metrics := results |}).

Definition get_df {num : Type} : Method num (list (Campaign.t num)) :=
  fun self => Returned (df self, self).

Notation "x <- m ;; k" := (bind m (fun x => k))
  (at level 61, m at next level, right associativity).

(** ** The program *)

Section Program.
Context {num : Type} {A : Arith num}.
Local Open Scope num_scope.

(** The body of the loop of [calculate_roi_metrics], for the rows
    [channel_data] of one channel. *)
Definition channel_row (channel_data : list (Campaign.t num)) : ChannelMetrics num :=
  let total_spend := pd_sum (map Campaign.Spend channel_data) in
  let total_revenue := pd_sum (map Campaign.Revenue channel_data) in
  let total_conversions := pd_sum (map Campaign.Conversions channel_data) in
  let roi :=
    if total_spend >? num_lit 0
    then ((total_revenue - total_spend) / total_spend) * num_lit 100
    else num_lit 0 in
  let cac :=
    if total_conversions >? num_lit 0
    then total_spend / total_conversions
    else num_lit 0 in
  let conversion_rate :=
    if pd_sum (map Campaign.Clicks channel_data) >? num_lit 0
    then total_conversions / pd_sum (map Campaign.Clicks channel_data) * num_lit 100
    else num_lit 0 in
  let romi :=
    if total_spend >? num_lit 0
    then (total_revenue - total_spend) / total_spend
    else num_lit 0 in
  {| TotalSpend := total_spend;
     TotalRevenue := total_revenue;
     ROI := roi;
     CAC := cac;
     ConversionRate := conversion_rate;
     ROMI := romi;
     Conversions := total_conversions;
     Clicks := pd_sum (map Campaign.Clicks channel_data);
     Impressions := pd_sum (map Campaign.Impressions channel_data) |}.

(** The dictionary [results] at the end of the loop: one entry per distinct
    channel, in order of first appearance. *)
Definition roi_results (rows : list (Campaign.t num)) : Frame (ChannelMetrics num) :=
  map (fun channel =>
         (channel,
          channel_row (filter (fun r => String.eqb (Campaign.Channel r) channel) rows)))
      (unique (map Campaign.Channel rows)).

Definition calculate_roi_metrics : Method num (Frame (ChannelMetrics num)) :=
  rows <- get_df ;;
  let results := roi_results rows in
  _ <- set_channel_metrics results ;;
  ret results.

(** The analyzer once [calculate_roi_metrics] has run on the rows. *)
Definition analyzed (rows : list (Campaign.t num)) : Analyzer num :=
  {| df := rows; channel_metrics := roi_results rows |}.

(** The frame of [identify_optimization_opportunities] once sorted by ROI. *)
Definition sorted_metrics (results : Frame (ChannelMetrics num))
  : Frame (ChannelMetrics num) :=
  sort_values (fun entry => ROI (snd entry)) false results.

Definition total_roi (results : Frame (ChannelMetrics num)) : num :=
  pd_sum (column (@ROI num) (sorted_metrics results)).

Definition plan_row (total_roi budget : num) (m : ChannelMetrics num) : PlanRow num :=
  let optimal_allocation := (ROI m / total_roi) * budget in
  let current_revenue := TotalRevenue m in
  let expected_revenue := (optimal_allocation / TotalSpend m) * TotalRevenue m in
  {| metrics := m;
     OptimalAllocation := optimal_allocation;
     CurrentRevenue := current_revenue;
     ExpectedRevenue := expected_revenue;
     RevenueIncrease := expected_revenue - current_revenue |}.

(** [identify_optimization_opportunities(budget)].  A frame built from an
    empty dictionary has no column at all, and sorting it by ['ROI'] raises
    [KeyError].  (The copy [current_allocation] of the spend column is never
    used.) *)
Definition identify_optimization_opportunities (budget : num)
  : Method num (Frame (PlanRow num)) :=
  results <- get_channel_metrics ;;
  match results with
  | [] => raise (KeyError "ROI")
  | _ :: _ =>
      let metrics_df := sorted_metrics results in
      let total_roi := pd_sum (column (@ROI num) metrics_df) in
      ret (map (fun entry => (fst entry, plan_row total_roi budget (snd entry)))
               metrics_df)
  end.

(** What [generate_recommendations] prints, and the frame it returns. *)
Record Report : Type := {
  top_performers : Frame (PlanRow num);
  underperformers : Frame (PlanRow num);
  total_increase : num;
  roi_improvement : num;
  optimal_df : Frame (PlanRow num)
}.

Definition plan_roi (entry : string * PlanRow num) : num := ROI (metrics (snd entry)).

Definition generate_recommendations : Method num Report :=
  metrics_df <- calculate_roi_metrics ;;
  optimal <- identify_optimization_opportunities (num_lit 100000) ;;
  let top := nlargest plan_roi 3 optimal in
  let under := nsmallest plan_roi 2 optimal in
  let increase := pd_sum (column (@RevenueIncrease num) optimal) in
  ret {| top_performers := top;
         underperformers := under;
         total_increase := increase;
         roi_improvement :=
           (increase / pd_sum (column (@TotalSpend num) metrics_df)) * num_lit 100;
         optimal_df := optimal |}.

End Program.

(** ** Sample campaign data *)

Definition campaign (channel : string) (spend revenue clicks conversions impressions : float)
  : Campaign.t float :=
  Campaign.make channel spend revenue clicks conversions impressions.

(** The two campaigns of the documented scenario; the impression counts are
    not part of it. *)
Definition scenario_rows (email_impressions social_impressions : float)
  : list (Campaign.t float) :=
  [ campaign "Email" 1000 3000 500 50 email_impressions;
    campaign "Social" 2000 1800 1000 40 social_impressions ].

(** A campaign booked with a negative spend. *)
Definition refund_rows : list (Campaign.t float) :=
  [ campaign "Email" (-250) 3000 500 50 9000 ].

(** Returns of +50% and -50%: the ROI column sums to zero. *)
Definition offsetting_rows : list (Campaign.t float) :=
  [ campaign "Search" 1000 1500 400 20 8000;
    campaign "Display" 1000 500 400 20 8000 ].

(** A channel that earns revenue without any spend, next to a paid one. *)
Definition organic_rows : list (Campaign.t float) :=
  [ campaign "Email" 1000 3000 500 50 9000;
    campaign "Organic" 0 500 200 10 4000 ].

(** Only channels without spend. *)
Definition unpaid_rows : list (Campaign.t float) :=
  [ campaign "Organic" 0 500 200 10 4000 ].

(** Three channels that all return 100%. *)
Definition tied_rows : list (Campaign.t float) :=
  [ campaign "Social" 1000 2000 400 20 8000;
    campaign "Paid" 3000 6000 900 30 9000;
    campaign "Email" 500 1000 100 10 2000 ].


(** A channel without spend, clicks or conversions. *)
Definition idle_rows : list (Campaign.t float) :=
  [ campaign "Email" 1000 3000 500 50 9000;
    campaign "Referral" 0 500 0 0 4000 ].



(** A row with a value the specification calls invalid. *)
Definition has_negative_field (r : Campaign.t float) : bool :=
  PrimFloat.ltb (Campaign.Spend r) 0 || PrimFloat.ltb (Campaign.Clicks r) 0
  || PrimFloat.ltb (Campaign.Conversions r) 0 || PrimFloat.ltb (Campaign.Impressions r) 0.

(** ** The order of binary64 values

    The comparison of two values other than NaN is the lexicographic order of
    these keys: the class (infinities outermost, zeros of either sign in the
    middle), then the exponent, then the mantissa, both negated for negative
    values. *)
Definition SFkey (x : spec_float) : Z * Z * Z :=
  match x with
  | S754_nan => (0, 0, 0)%Z
  | S754_zero _ => (0, 0, 0)%Z
  | S754_infinity true => (-2, 0, 0)%Z
  | S754_infinity false => (2, 0, 0)%Z
  | S754_finite true m e => (-1, - e, - Z.pos m)%Z
  | S754_finite false m e => (1, e, Z.pos m)%Z
  end.

Definition key_lt (a b : Z * Z * Z) : Prop :=
  let '(a1, a2, a3) := a in
  let '(b1, b2, b3) := b in
  (a1 < b1 \/ (a1 = b1 /\ (a2 < b2 \/ (a2 = b2 /\ a3 < b3))))%Z.

(** The sign a rounded result carries: [negative] is the sign bit. *)
Definition SFsigned (negative : bool) (x : spec_float) : Prop :=
  match x with
  | S754_nan => False
  | S754_zero s | S754_infinity s | S754_finite s _ _ => s = negative
  end.

(** ** Facts about binary64

    The primitive operations are specified by the Standard Library's
    [FloatAxioms] through [Prim2SF]; the facts below are derived from that
    specification. *)

Section Binary64Facts.
Local Open Scope float_scope.

Lemma float_lit_0 : num_lit (num := float) 0 = 0.
Proof. reflexivity. Qed.

Lemma float_lit_100 : num_lit (num := float) 100 = 100.
Proof. reflexivity. Qed.

Lemma float_is_nan_spec (x : float) :
  is_nan x = true <-> Prim2SF x = S754_nan.
Proof.
  unfold is_nan. rewrite FloatAxioms.eqb_spec.
  destruct (Prim2SF x) as [s|s| |s m e]; cbn; try (split; discriminate).
  - destruct s; split; discriminate.
  - split; reflexivity.
  - unfold SFeqb, SFcompare.
    destruct s; rewrite Z.compare_refl, Pos.compare_cont_refl; split; discriminate.
Qed.

Lemma float_ltb_notna (x y : float) :
  (x <? y) = true -> is_nan x = false /\ is_nan y = false.
Proof.
  rewrite ltb_spec. intros L.
  split; apply not_true_is_false; rewrite float_is_nan_spec; intros E;
    rewrite E in L; [|destruct (Prim2SF x)]; discriminate.
Qed.

Lemma float_na_ltb (x y : float) :
  is_nan x = true -> (x <? y) = false /\ (y <? x) = false.
Proof.
  intros N. split; apply not_true_is_false; intros L;
    apply float_ltb_notna in L; destruct L; congruence.
Qed.

Lemma SFcompare_antisym (x y : spec_float) :
  SFcompare y x = option_map CompOpp (SFcompare x y).
Proof.
  destruct x as [s|s| |s m e], y as [s'|s'| |s' m' e']; cbn; try reflexivity;
    try (now destruct s); try (now destruct s'); try (now destruct s, s').
  change (Pos.compare_cont Eq m m') with (Pos.compare m m').
  change (Pos.compare_cont Eq m' m) with (Pos.compare m' m).
  rewrite (Z.compare_antisym e e'), (Pos.compare_antisym m m').
  destruct s, s'; try reflexivity;
    now destruct (e ?= e')%Z, (m ?= m')%positive.
Qed.

Lemma float_eqb_not_ltb (x y : float) :
  (x =? y) = true -> (x <? y) = false /\ (y <? x) = false.
Proof.
  rewrite FloatAxioms.eqb_spec, !ltb_spec. unfold SFeqb, SFltb.
  rewrite (SFcompare_antisym (Prim2SF x) (Prim2SF y)).
  destruct (SFcompare (Prim2SF x) (Prim2SF y)) as [[ | | ]|];
    cbn; try discriminate. now split.
Qed.

Lemma float_ltb_asym (x y : float) :
  (x <? y) = true -> (y <? x) = false.
Proof.
  rewrite !ltb_spec. unfold SFltb.
  rewrite (SFcompare_antisym (Prim2SF x) (Prim2SF y)).
  destruct (SFcompare (Prim2SF x) (Prim2SF y)) as [[ | | ]|];
    cbn; (discriminate || reflexivity).
Qed.

(** A value equal to zero (of either sign) is not greater than zero. *)
Lemma float_zero_not_positive (x : float) :
  (x =? 0) = true -> (0 <? x) = false.
Proof. intros E. apply float_eqb_not_ltb in E. apply E. Qed.

Lemma float_eqb_refl (x : float) : is_nan x = false -> (x =? x) = true.
Proof. unfold is_nan. now destruct (x =? x). Qed.

Lemma Z_div_eucl_pair (a b : Z) : Z.div_eucl a b = (Z.div a b, Z.modulo a b).
Proof. unfold Z.div, Z.modulo. now destruct (Z.div_eucl a b). Qed.

Lemma SFdiv_self (s : bool) (m : positive) (e : Z) :
  SF64div (S754_finite s m e) (S754_finite s m e) = Prim2SF 1.
Proof.
  unfold SF64div, SFdiv, SFdiv_core_binary.
  replace (Zdigits2 (Z.pos m) + e - (Zdigits2 (Z.pos m) + e))%Z with 0%Z by lia.
  replace (e - e)%Z with 0%Z by lia.
  change (Z.min (fexp prec emax 0) 0) with (-53)%Z.
  change (0 - -53)%Z with 53%Z.
  cbv iota beta.
  rewrite Z_div_eucl_pair, Z.shiftl_mul_pow2 by lia.
  rewrite (Z.mul_comm (Z.pos m)), Z.div_mul, Z.mod_mul by lia.
  assert (L : new_location (Z.pos m) 0 = loc_Exact).
  { unfold new_location. now destruct (Z.even (Z.pos m)). }
  rewrite L. now destruct s.
Qed.

Lemma shr_1_iter_52 (m : positive) :
  iter_pos shr_1 52
    {| shr_m := Z.pos (4503599627370496 * m); shr_r := false; shr_s := false |}
  = {| shr_m := Z.pos m; shr_r := false; shr_s := false |}.
Proof. reflexivity. Qed.

Lemma digits2_pos_shift_52 (p : positive) :
  digits2_pos (4503599627370496 * p) = (digits2_pos p + 52)%positive.
Proof. cbn. lia. Qed.

Lemma SFmul_one_l (s : bool) (m : positive) (e : Z) :
  valid_binary (S754_finite s m e) = true ->
  SF64mul (Prim2SF 1) (S754_finite s m e) = S754_finite s m e.
Proof.
  cbn [SpecFloat.valid_binary]. unfold bounded, canonical_mantissa.
  intros H. apply andb_prop in H as [Hc Hb]. apply Z.eqb_eq in Hc.
  change (Prim2SF 1) with (S754_finite false 4503599627370496 (-52)).
  unfold SF64mul, SFmul. cbn [xorb].
  unfold binary_round_aux, shr_fexp at 1. unfold Zdigits2 at 1.
  rewrite digits2_pos_shift_52.
  replace (Z.pos (digits2_pos m + 52) + (-52 + e))%Z
    with (Z.pos (digits2_pos m) + e)%Z by lia.
  rewrite Hc. replace (e - (-52 + e))%Z with 52%Z by lia.
  unfold shr_record_of_loc at 1, shr at 1. rewrite shr_1_iter_52.
  replace (-52 + e + 52)%Z with e by lia.
  cbn [shr_m loc_of_shr_record round_nearest_even].
  unfold shr_fexp, Zdigits2. rewrite Hc, Z.sub_diag.
  cbn [shr shr_record_of_loc shr_m]. now rewrite Hb.
Qed.

(** Multiplying by one is exact. *)
Lemma float_mul_1_l (b : float) : 1 * b = b.
Proof.
  apply Prim2SF_inj. rewrite mul_spec.
  pose proof (Prim2SF_valid b) as V.
  destruct (Prim2SF b) as [s|s| |s m e]; try reflexivity.
  now apply SFmul_one_l.
Qed.

(** A finite positive value divided by itself is exactly one. *)
Lemma float_div_diag (x : float) :
  is_finite x = true -> (0 <? x) = true -> x / x = 1.
Proof.
  unfold is_finite, is_nan, is_infinity.
  rewrite !FloatAxioms.eqb_spec, abs_spec, ltb_spec. intros F P.
  apply Prim2SF_inj. rewrite div_spec.
  destruct (Prim2SF x) as [s|s| |s m e]; try discriminate.
  - destruct s; discriminate.
  - apply SFdiv_self.
Qed.

(** Adding a positive value to zero gives that value. *)
Lemma float_add_0_l (x : float) : (0 <? x) = true -> 0 + x = x.
Proof.
  rewrite ltb_spec. intros P.
  apply Prim2SF_inj. rewrite add_spec.
  destruct (Prim2SF x) as [s|s| |s m e]; try discriminate; reflexivity.
Qed.

End Binary64Facts.

(** ** Facts about the pandas operations *)

Section ListFacts.
Variable T : Type.
Implicit Types (a b x : T) (l : list T).






Lemma filter_partition_Permutation (f : T -> bool) l :
  Permutation (filter f l ++ filter (fun x => negb (f x)) l) l.
Proof.
  induction l as [|x l IH]; cbn; [constructor|].
  destruct (f x); cbn.
  - now constructor.
  - symmetry. apply Permutation_cons_app. now symmetry.
Qed.



End ListFacts.

Section SortFacts.
Context {num : Type} {A : Arith num}.
Variable R : Type.
Variable by_ : R -> num.
Implicit Types (a b x : R) (rows : list R).

Lemma insert_row_Permutation ascending x rows :
  Permutation (insert_row by_ ascending x rows) (x :: rows).
Proof.
  induction rows as [|y rows IH]; cbn; [reflexivity|].
  destruct (strictly_before by_ ascending y x); [|reflexivity].
  rewrite IH. apply perm_swap.
Qed.

Lemma stable_sort_Permutation ascending rows :
  Permutation (stable_sort by_ ascending rows) rows.
Proof.
  induction rows as [|x rows IH]; cbn; [constructor|].
  rewrite insert_row_Permutation. now constructor.
Qed.

Lemma sort_values_Permutation ascending rows :
  Permutation (sort_values by_ ascending rows) rows.
Proof.
  unfold sort_values. rewrite stable_sort_Permutation.
  rewrite (filter_ext (fun r => num_isna (by_ r))
             (fun r => negb (notna (by_ r)))).
  - apply filter_partition_Permutation.
  - intros r. unfold notna. now rewrite negb_involutive.
Qed.





Hypothesis num_lt_asym : forall x y : num, num_lt x y = true -> num_lt y x = false.
Hypothesis num_lt_na : forall x y : num,
  num_isna x = true -> num_lt x y = false /\ num_lt y x = false.




Lemma in_order_na ascending a b :
  num_isna (by_ b) = true -> in_order by_ ascending a b.
Proof.
  intros N. unfold in_order, strictly_before.
  destruct (num_lt_na (by_ b) (by_ a) N). now destruct ascending.
Qed.


End SortFacts.

(** ** Facts about the aggregation *)

Lemma unique_In (v : string) (values : list string) :
  In v (unique values) <-> In v values.
Proof.
  induction values as [|w values IH]; cbn; [tauto|].
  rewrite filter_In, IH. split.
  - intros [E | [H _]]; auto.
  - intros [E | H]; auto.
    destruct (String.eqb_spec v w) as [-> | N]; auto.
Qed.

Lemma unique_NoDup (values : list string) : NoDup (unique values).
Proof.
  induction values as [|w values IH]; cbn; constructor.
  - rewrite filter_In. intros [_ E]. now rewrite String.eqb_refl in E.
  - now apply NoDup_filter.
Qed.

Section AggregationFacts.
Context {num : Type} {A : Arith num}.

Lemma calculate_roi_metrics_returns (self : Analyzer num) :
  calculate_roi_metrics self
  = Returned (roi_results (df self),
              {| df := df self; channel_metrics := roi_results (df self) |}).
Proof. reflexivity. Qed.

Lemma roi_results_In (rows : list (Campaign.t num)) (c : string) (m : ChannelMetrics num) :
  In (c, m) (roi_results rows) <->
  In c (map Campaign.Channel rows)
  /\ m = channel_row (filter (fun r => String.eqb (Campaign.Channel r) c) rows).
Proof.
  unfold roi_results. rewrite in_map_iff. split.
  - intros (c' & E & H). inversion E; subst. now rewrite unique_In in H.
  - intros (H & ->). exists c. now rewrite unique_In.
Qed.

Lemma roi_results_index (rows : list (Campaign.t num)) :
  index (roi_results rows) = unique (map Campaign.Channel rows).
Proof.
  unfold index, roi_results. rewrite map_map. cbn. apply map_id.
Qed.

End AggregationFacts.

(** C2, as the code has it: [calculate_roi_metrics] validates nothing and
    raises nothing.  Whatever the signs of the values, it returns the entry of
    every row's channel, computed from all the rows of that channel (the row's
    own values included in the sums), one entry per distinct channel. *)
Theorem calculate_roi_metrics_accepts_every_row (self : Analyzer float) :
  exists results self',
    calculate_roi_metrics self = Returned (results, self')
    /\ index results = unique (map Campaign.Channel (df self))
    /\ forall r, In r (df self) ->
         In (Campaign.Channel r,
             channel_row (filter (fun r' => String.eqb (Campaign.Channel r') (Campaign.Channel r))
                                 (df self)))
            results.
Proof.
  eexists _, _. split; [apply calculate_roi_metrics_returns|]. split.
  - apply roi_results_index.
  - intros r H. apply roi_results_In. split; [now apply in_map | reflexivity].
Qed.

(** C4: in every entry [calculate_roi_metrics] produces, a ratio whose
    denominator is zero is 0: total spend zero gives ROI 0 and ROMI 0, total
    conversions zero gives CAC 0, total clicks zero gives conversion rate 0;
    and the call returns (it raises nothing). *)
Theorem zero_denominator_gives_zero (self : Analyzer float) :
  exists results self',
    calculate_roi_metrics self = Returned (results, self')
    /\ forall c m, In (c, m) results ->
         ((TotalSpend m =? 0)%float = true -> ROI m = 0%float /\ ROMI m = 0%float)
         /\ ((Conversions m =? 0)%float = true -> CAC m = 0%float)
         /\ ((Clicks m =? 0)%float = true -> ConversionRate m = 0%float).
Proof.
  eexists _, _. split; [apply calculate_roi_metrics_returns|].
  intros c m H. apply roi_results_In in H as [_ ->].
  unfold channel_row; cbn [TotalSpend Conversions Clicks ROI ROMI CAC ConversionRate].
  cbn [num_lt binary64]. rewrite float_lit_0.
  split; [|split]; intros Z; apply float_zero_not_positive in Z; rewrite Z;
    [split|..]; reflexivity.
Qed.

(** C6: in every entry [calculate_roi_metrics] produces, ROMI times 100 is
    the very value of ROI (also when both are 0 because the spend is), and the
    two compare equal whenever ROI is a number. *)
Theorem romi_times_100_is_roi (self : Analyzer float) :
  exists results self',
    calculate_roi_metrics self = Returned (results, self')
    /\ forall c m, In (c, m) results ->
         (ROMI m * 100)%float = ROI m
         /\ (PrimFloat.is_nan (ROI m) = false ->
             (ROMI m * 100 =? ROI m)%float = true).
Proof.
  eexists _, _. split; [apply calculate_roi_metrics_returns|].
  intros c m H. apply roi_results_In in H as [_ ->].
  assert (E : (ROMI (channel_row
                (filter (fun r => String.eqb (Campaign.Channel r) c) (df self))) * 100)%float
              = ROI (channel_row
                (filter (fun r => String.eqb (Campaign.Channel r) c) (df self)))).
  { unfold channel_row; cbn [ROI ROMI]. cbn [num_lt num_mul binary64].
    rewrite float_lit_100, float_lit_0.
    now destruct (PrimFloat.ltb 0 _). }
  split; [exact E|]. rewrite E. apply float_eqb_refl.
Qed.

Lemma calculate_roi_metrics_accepts_every_row_witness :
  In ("Email"%string, channel_row refund_rows) (roi_results refund_rows).
Proof.
  destruct (calculate_roi_metrics_accepts_every_row (init refund_rows))
    as (results & self' & E & _ & H).
  rewrite calculate_roi_metrics_returns in E. injection E as <- _.
  apply (H (campaign "Email" (-250) 3000 500 50 9000)). now left.
Defined.

Lemma zero_denominator_gives_zero_witness :
  exists m,
    In ("Referral"%string, m) (roi_results idle_rows)
    /\ (TotalSpend m = 0 /\ Conversions m = 0 /\ Clicks m = 0)%float
    /\ (ROI m = 0 /\ ROMI m = 0 /\ CAC m = 0 /\ ConversionRate m = 0)%float.
Proof.
  destruct (zero_denominator_gives_zero (init idle_rows)) as (results & self' & E & H).
  rewrite calculate_roi_metrics_returns in E. injection E as <- _.
  exists (channel_row [campaign "Referral" 0 500 0 0 4000]).
  assert (I : In ("Referral"%string, channel_row [campaign "Referral" 0 500 0 0 4000])
                 (roi_results (df (init idle_rows)))) by (right; now left).
  destruct (H _ _ I) as (S & C & K).
  split; [exact I|]. split; [repeat split; vm_compute; reflexivity|].
  destruct S as [S1 S2]; [vm_compute; reflexivity|].
  split; [exact S1|]. split; [exact S2|].
  split; [apply C | apply K]; vm_compute; reflexivity.
Defined.

Lemma romi_times_100_is_roi_witness :
  exists m,
    In ("Social"%string, m) (roi_results (scenario_rows 9000 7000))
    /\ (ROI m = -10 /\ ROMI m * 100 = ROI m)%float.
Proof.
  destruct (romi_times_100_is_roi (init (scenario_rows 9000 7000)))
    as (results & self' & E & H).
  rewrite calculate_roi_metrics_returns in E. injection E as <- _.
  assert (I : In ("Social"%string, channel_row [campaign "Social" 2000 1800 1000 40 7000])
                 (roi_results (df (init (scenario_rows 9000 7000)))))
    by (right; now left).
  exists (channel_row [campaign "Social" 2000 1800 1000 40 7000]).
  split; [exact I|]. split; [vm_compute; reflexivity|].
  exact (proj1 (H _ _ I)).
Defined.

(** C2, refuted as stated: a row with a negative spend is aggregated, and
    the call returns its channel's entry. *)
Lemma negative_spend_is_aggregated :
  existsb has_negative_field refund_rows = true
  /\ exists m self',
       calculate_roi_metrics (init refund_rows) = Returned ([("Email"%string, m)], self')
       /\ TotalSpend m = (-250)%float /\ ROI m = 0%float.
Proof.
  split; [reflexivity|]. eexists _, _. split; [|split]; vm_compute; reflexivity.
Qed.

(** C5: on the two campaigns of the scenario, whatever their impression
    counts, [calculate_roi_metrics] returns exactly the channels Email and
    Social, with ROI 200, CAC 20, conversion rate 10 and ROI -10, CAC 50,
    conversion rate 4. *)
Theorem scenario_metrics (email_impressions social_impressions : float) :
  exists email social self',
    calculate_roi_metrics (init (scenario_rows email_impressions social_impressions))
    = Returned ([("Email"%string, email); ("Social"%string, social)], self')
    /\ (ROI email = 200 /\ CAC email = 20 /\ ConversionRate email = 10)%float
    /\ (ROI social = -10 /\ CAC social = 50 /\ ConversionRate social = 4)%float.
Proof.
  eexists _, _, _. split; [cbv; reflexivity|].
  repeat split; vm_compute; reflexivity.
Qed.

(** ** Facts about the budget plan *)

Section PlanFacts.
Context {num : Type} {A : Arith num}.

Lemma identify_optimization_opportunities_empty (budget : num) (self : Analyzer num) :
  channel_metrics self = [] ->
  identify_optimization_opportunities budget self = Raised (KeyError "ROI").
Proof.
  intros E. unfold identify_optimization_opportunities, bind, get_channel_metrics.
  now rewrite E.
Qed.

Lemma identify_optimization_opportunities_returns (budget : num) (self : Analyzer num) :
  channel_metrics self <> [] ->
  identify_optimization_opportunities budget self
  = Returned
      (map (fun entry =>
              (fst entry, plan_row (total_roi (channel_metrics self)) budget (snd entry)))
           (sorted_metrics (channel_metrics self)),
       self).
Proof.
  intros N. unfold identify_optimization_opportunities, bind, get_channel_metrics.
  destruct (channel_metrics self) as [|e results]; [contradiction | reflexivity].
Qed.

Lemma sorted_metrics_Permutation (results : Frame (ChannelMetrics num)) :
  Permutation (sorted_metrics results) results.
Proof. apply sort_values_Permutation. Qed.

Lemma plan_index (total budget : num) (frame : Frame (ChannelMetrics num)) :
  index (map (fun entry => (fst entry, plan_row total budget (snd entry))) frame)
  = index frame.
Proof. unfold index. rewrite map_map. reflexivity. Qed.

Lemma roi_results_nonempty (rows : list (Campaign.t num)) :
  rows <> [] -> roi_results rows <> [].
Proof. unfold roi_results. now destruct rows. Qed.

End PlanFacts.

(** C1, refuted as stated: with returns of +50% and -50% the ROI column sums
    to zero, and the call returns a plan whose allocations are infinite. *)
Lemma zero_roi_sum_gives_infinite_allocations :
  total_roi (channel_metrics (analyzed offsetting_rows)) = 0%float
  /\ exists plan,
       identify_optimization_opportunities 100000%float (analyzed offsetting_rows)
       = Returned (plan, analyzed offsetting_rows)
       /\ map (fun entry => (fst entry, OptimalAllocation (snd entry))) plan
          = [("Search"%string, infinity); ("Display"%string, neg_infinity)].
Proof.
  split; [vm_compute; reflexivity|].
  eexists. split; [apply identify_optimization_opportunities_returns; discriminate|].
  vm_compute. reflexivity.
Qed.

(** C1, as the code has it: when the ROI column of a non-empty metrics
    dictionary sums to zero, [identify_optimization_opportunities] raises
    nothing: it returns a plan with exactly one row per channel of the
    dictionary.  (Nothing is said here about the allocations in those rows.) *)
Theorem zero_roi_sum_returns_a_plan (budget : float) (self : Analyzer float) :
  channel_metrics self <> [] ->
  (total_roi (channel_metrics self) =? 0)%float = true ->
  exists plan,
    identify_optimization_opportunities budget self = Returned (plan, self)
    /\ Permutation (index plan) (index (channel_metrics self)).
Proof.
  intros N _. eexists. split; [now apply identify_optimization_opportunities_returns|].
  rewrite plan_index. apply Permutation_map, sorted_metrics_Permutation.
Qed.

Lemma zero_roi_sum_returns_a_plan_witness :
  exists plan,
    identify_optimization_opportunities 100000%float (analyzed offsetting_rows)
    = Returned (plan, analyzed offsetting_rows)
    /\ Permutation (index plan) (index (channel_metrics (analyzed offsetting_rows))).
Proof.
  apply (zero_roi_sum_returns_a_plan 100000%float (analyzed offsetting_rows)).
  - discriminate.
  - vm_compute. reflexivity.
Defined.

(** C3, the code at a channel without spend: the expected revenue of
    Organic, whose total spend is 0, is NaN (0/0 times the revenue), neither
    an error nor 0. *)
Theorem zero_spend_expected_revenue_is_nan :
  exists plan,
    identify_optimization_opportunities 100000%float (analyzed organic_rows)
    = Returned (plan, analyzed organic_rows)
    /\ map (fun entry => (fst entry, TotalSpend (metrics (snd entry)),
                          ExpectedRevenue (snd entry))) plan
       = [("Email"%string, 1000%float, 300000%float); ("Organic"%string, 0%float, nan)].
Proof.
  eexists. split; [apply identify_optimization_opportunities_returns; discriminate|].
  vm_compute. reflexivity.
Qed.

(** C7: for a metrics dictionary with a single channel whose ROI is a
    positive number, and a positive budget, the plan has that one channel and
    its optimal allocation is exactly the budget. *)
Theorem single_channel_gets_the_budget
  (c : string) (m : ChannelMetrics float) (budget : float) (self : Analyzer float) :
  channel_metrics self = [(c, m)] ->
  PrimFloat.is_finite (ROI m) = true ->
  (0 <? ROI m)%float = true ->
  (0 <? budget)%float = true ->
  exists row,
    identify_optimization_opportunities budget self = Returned ([(c, row)], self)
    /\ metrics row = m
    /\ OptimalAllocation row = budget.
Proof.
  intros E F P _.
  assert (N : PrimFloat.is_nan (ROI m) = false) by (now apply float_ltb_notna in P).
  assert (S : sorted_metrics [(c, m)] = [(c, m)]).
  { unfold sorted_metrics, sort_values, notna. cbn. now rewrite N. }
  assert (T : total_roi [(c, m)] = ROI m).
  { unfold total_roi. rewrite S. unfold pd_sum, column, notna. cbn. rewrite N. cbn.
    now apply float_add_0_l. }
  exists (plan_row (total_roi [(c, m)]) budget m). split.
  - rewrite identify_optimization_opportunities_returns by (rewrite E; discriminate).
    rewrite E, S. reflexivity.
  - split; [reflexivity|]. unfold plan_row. cbn [OptimalAllocation]. rewrite T.
    cbn [num_div num_mul binary64].
    rewrite float_div_diag by assumption. apply float_mul_1_l.
Qed.

Lemma single_channel_gets_the_budget_witness :
  exists row,
    identify_optimization_opportunities 25000%float
      (analyzed [campaign "Email" 1000 3000 500 50 9000])
    = Returned ([("Email"%string, row)],
                analyzed [campaign "Email" 1000 3000 500 50 9000])
    /\ metrics row = channel_row [campaign "Email" 1000 3000 500 50 9000]
    /\ OptimalAllocation row = 25000%float.
Proof.
  apply (single_channel_gets_the_budget (c := "Email")
           (m := channel_row [campaign "Email" 1000 3000 500 50 9000])).
  - reflexivity.
  - vm_compute. reflexivity.
  - vm_compute. reflexivity.
  - vm_compute. reflexivity.
Defined.

(** ** Facts about the report *)

Section ReportFacts.
Context {num : Type} {A : Arith num}.

(** The analyzer after [calculate_roi_metrics]. *)
Lemma generate_recommendations_returns (self : Analyzer num) :
  df self <> [] ->
  exists report,
    generate_recommendations self
    = Returned (report, {| df := df self; channel_metrics := roi_results (df self) |})
    /\ identify_optimization_opportunities (num_lit 100000)
         {| df := df self; channel_metrics := roi_results (df self) |}
       = Returned (optimal_df report,
                   {| df := df self; channel_metrics := roi_results (df self) |})
    /\ top_performers report = nlargest plan_roi 3 (optimal_df report)
    /\ underperformers report = nsmallest plan_roi 2 (optimal_df report)
    /\ total_increase report
       = pd_sum (column (@RevenueIncrease num) (optimal_df report))
    /\ roi_improvement report
       = num_mul (num_div (total_increase report)
                          (pd_sum (column (@TotalSpend num) (roi_results (df self)))))
                 (num_lit 100).
Proof.
  intros N. unfold generate_recommendations.
  unfold bind at 1. rewrite calculate_roi_metrics_returns.
  unfold bind at 1.
  rewrite identify_optimization_opportunities_returns
    by (cbn; now apply roi_results_nonempty).
  unfold ret. eexists. split; [reflexivity|]. cbn. repeat split; reflexivity.
Qed.

End ReportFacts.

(** C9, the code where no channel has any spend: the revenue increase that
    is printed is the sum of the column and the ROI improvement is that sum
    divided by the total spend, times 100, for every non-empty data frame; with
    a total spend of 0 the quotient is 0/0 and the improvement is NaN, not 0. *)
Theorem roi_improvement_divides_by_total_spend :
  (forall self : Analyzer float, df self <> [] ->
     exists report self',
       generate_recommendations self = Returned (report, self')
       /\ total_increase report
          = pd_sum (column (@RevenueIncrease float) (optimal_df report))
       /\ roi_improvement report
          = (total_increase report
             / pd_sum (column (@TotalSpend float) (channel_metrics self')) * 100)%float)
  /\ exists report self',
       generate_recommendations (init unpaid_rows) = Returned (report, self')
       /\ pd_sum (column (@TotalSpend float) (channel_metrics self')) = 0%float
       /\ total_increase report = 0%float
       /\ roi_improvement report = nan.
Proof.
  split.
  - intros self N.
    destruct (generate_recommendations_returns self N) as (report & E & _ & _ & _ & T & I).
    exists report. eexists. split; [exact E|]. split; [exact T|]. exact I.
  - eexists _, _. split; [vm_compute; reflexivity|].
    repeat split; vm_compute; reflexivity.
Qed.

(** ** The order of the selections *)








(** ** The allocations and the budget *)


Section ExactFacts.
Local Open Scope Qc_scope.







End ExactFacts.



(** * Further properties of the program *)

(** ** More facts about binary64 *)

Section Binary64Order.
Local Open Scope float_scope.

Lemma SFltb_key (x y : spec_float) :
  x <> S754_nan -> y <> S754_nan ->
  (SFltb x y = true <-> key_lt (SFkey x) (SFkey y)).
Proof.
  intros Nx Ny. unfold SFltb, SFcompare.
  destruct x as [s|s| |s m e], y as [s'|s'| |s' m' e']; try congruence;
    try destruct s; try destruct s'; cbn; try (split; [discriminate|lia]);
    try (split; [reflexivity|lia]; fail);
    try (split; [intros _; lia | reflexivity]).
  all: change (Pos.compare_cont Eq m m') with (Pos.compare m m');
    destruct (Z.compare_spec e e') as [He|He|He],
             (Pos.compare_spec m m') as [Hm|Hm|Hm]; cbn;
    split; intros H; try discriminate; try reflexivity; try lia.
Qed.

Lemma key_not_lt_trans (a b c : Z * Z * Z) :
  ~ key_lt a b -> ~ key_lt b c -> ~ key_lt a c.
Proof.
  destruct a as [[a1 a2] a3], b as [[b1 b2] b3], c as [[c1 c2] c3]. cbn. lia.
Qed.

Lemma float_notna_spec (x : float) : is_nan x = false -> Prim2SF x <> S754_nan.
Proof. intros N E. apply float_is_nan_spec in E. congruence. Qed.

(** On values other than NaN, "not less than" is transitive. *)
Lemma float_not_ltb_trans (x y z : float) :
  is_nan x = false -> is_nan y = false -> is_nan z = false ->
  (x <? y) = false -> (y <? z) = false -> (x <? z) = false.
Proof.
  intros Nx Ny Nz. rewrite !ltb_spec. intros A B.
  apply float_notna_spec in Nx, Ny, Nz.
  apply not_true_is_false. intros C.
  apply SFltb_key in C; [|assumption..].
  revert C. apply (@key_not_lt_trans _ (SFkey (Prim2SF y))).
  - rewrite <- SFltb_key by assumption. congruence.
  - rewrite <- SFltb_key by assumption. congruence.
Qed.

Lemma float_is_finite_spec (x : float) :
  is_finite x = match Prim2SF x with
                | S754_zero _ | S754_finite _ _ _ => true
                | _ => false
                end.
Proof.
  unfold is_finite, is_nan, is_infinity.
  rewrite !FloatAxioms.eqb_spec, abs_spec.
  change (Prim2SF infinity) with (S754_infinity false).
  destruct (Prim2SF x) as [s|s| |s m e]; try (now destruct s); try reflexivity.
  unfold SFeqb, SFcompare, SFabs.
  destruct s; now rewrite Z.compare_refl, Pos.compare_cont_refl.
Qed.

Lemma float_eqb_0_spec (x : float) :
  (x =? 0) = true <-> exists s, Prim2SF x = S754_zero s.
Proof.
  rewrite FloatAxioms.eqb_spec.
  destruct (Prim2SF x) as [s|s| |s m e]; cbn; split;
    try discriminate; try (intros [s' E]; discriminate).
  - intros _. now exists s.
  - reflexivity.
  - now destruct s.
  - now destruct s.
Qed.

(** A quotient by zero, times anything, is an infinity or NaN. *)
Lemma float_div_0_mul_not_finite (a t b : float) :
  (t =? 0) = true -> is_finite (a / t * b) = false.
Proof.
  intros Z. apply float_eqb_0_spec in Z as [s Z].
  rewrite float_is_finite_spec, mul_spec, div_spec, Z.
  destruct (Prim2SF a) as [sa|sa| |sa ma ea], (Prim2SF b) as [sb|sb| |sb mb eb];
    reflexivity.
Qed.

(** Subtracting from an infinity or NaN gives an infinity or NaN. *)
Lemma float_sub_not_finite (x c : float) :
  is_finite x = false -> is_finite (x - c) = false.
Proof.
  rewrite !float_is_finite_spec, sub_spec.
  destruct (Prim2SF x) as [sa|sa| |sa ma ea]; try discriminate; intros _;
    destruct (Prim2SF c) as [sb|sb| |sb mb eb]; try reflexivity;
    now destruct sa, sb.
Qed.

(** Zero over zero-or-anything, times the budget, over a zero spend, times
    the revenue: NaN. *)
Lemma float_zero_share_over_zero_spend (r t b s v : float) :
  (r =? 0) = true -> (s =? 0) = true -> is_nan (r / t * b / s * v) = true.
Proof.
  intros R S. apply float_eqb_0_spec in R as [sr R], S as [ss S].
  apply float_is_nan_spec. rewrite mul_spec, div_spec, mul_spec, div_spec, R, S.
  destruct (Prim2SF t) as [st|st| |st mt et], (Prim2SF b) as [sb|sb| |sb mb eb];
    cbn; destruct (Prim2SF v); reflexivity.
Qed.

Lemma float_nan_sub (x c : float) : is_nan x = true -> is_nan (x - c) = true.
Proof.
  rewrite !float_is_nan_spec, sub_spec. intros ->. reflexivity.
Qed.

(** A zero share of a total that is a number other than zero, times a
    finite budget, is zero. *)
Lemma float_zero_share (r t b : float) :
  (r =? 0) = true -> is_nan t = false -> (t =? 0) = false -> is_finite b = true ->
  (r / t * b =? 0) = true.
Proof.
  intros R Nt Zt Fb. apply float_eqb_0_spec in R as [sr R].
  apply float_notna_spec in Nt.
  assert (Zt' : forall s, Prim2SF t <> S754_zero s).
  { intros s E. rewrite (proj2 (float_eqb_0_spec t)) in Zt; [discriminate|now exists s]. }
  rewrite float_is_finite_spec in Fb.
  apply float_eqb_0_spec. rewrite mul_spec, div_spec, R.
  destruct (Prim2SF t) as [st|st| |st mt et]; try congruence;
    try (exfalso; apply (Zt' st); reflexivity);
    destruct (Prim2SF b) as [sb|sb| |sb mb eb]; try discriminate; cbn; eauto.
Qed.

End Binary64Order.

Section Binary64Sign.
Local Open Scope float_scope.

Lemma iter_pos_invariant (T : Type) (P : T -> Prop) (f : T -> T) :
  (forall x, P x -> P (f x)) -> forall p x, P x -> P (iter_pos f p x).
Proof.
  intros Hf. induction p as [p IH|p IH|]; intros x Hx; cbn; auto.
Qed.

Lemma shr_1_nonneg (mrs : shr_record) : (0 <= shr_m mrs)%Z -> (0 <= shr_m (shr_1 mrs))%Z.
Proof.
  destruct mrs as [m r s]. cbn. destruct m as [|[p|p|]|[p|p|]]; cbn; lia.
Qed.

Lemma shr_fexp_nonneg (m e : Z) (l : location) :
  (0 <= m)%Z -> (0 <= shr_m (fst (shr_fexp prec emax m e l)))%Z.
Proof.
  intros Hm. unfold shr_fexp, shr.
  assert (H0 : (0 <= shr_m (shr_record_of_loc m l))%Z).
  { destruct l as [|[ | | ]]; exact Hm. }
  destruct (fexp prec emax (Zdigits2 m + e) - e)%Z as [|p|p]; cbn [fst]; try exact H0.
  apply (iter_pos_invariant (fun mrs => (0 <= shr_m mrs)%Z)); [apply shr_1_nonneg | exact H0].
Qed.

Lemma round_nearest_even_nonneg (m : Z) (l : location) :
  (0 <= m)%Z -> (0 <= round_nearest_even m l)%Z.
Proof.
  intros Hm. destruct l as [|[ | | ]]; cbn; try lia. destruct (Z.even m); lia.
Qed.

(** Rounding a non-negative mantissa keeps the sign it is given. *)
Lemma binary_round_aux_signed (s : bool) (m e : Z) (l : location) :
  (0 <= m)%Z -> SFsigned s (binary_round_aux prec emax s m e l).
Proof.
  intros Hm. unfold binary_round_aux.
  pose proof (shr_fexp_nonneg e l Hm) as H1.
  destruct (shr_fexp prec emax m e l) as [mrs' e']. cbn [fst] in H1.
  pose proof (shr_fexp_nonneg e' loc_Exact
                (round_nearest_even_nonneg (loc_of_shr_record mrs') H1)) as H2.
  destruct (shr_fexp prec emax _ e' loc_Exact) as [mrs'' e'']. cbn [fst] in H2.
  destruct (shr_m mrs'') as [|p|p]; cbn; [reflexivity | | lia].
  now destruct (e'' <=? 971)%Z.
Qed.

Lemma SFdiv_signed (sx sy : bool) (x y : spec_float) :
  SFsigned sx x -> SFsigned sy y ->
  SF64div x y = S754_nan \/ SFsigned (xorb sx sy) (SF64div x y).
Proof.
  destruct x as [s|s| |s m e], y as [s'|s'| |s' m' e']; cbn; try contradiction;
    intros <- <-; auto.
  right. unfold SFdiv_core_binary.
  rewrite Z_div_eucl_pair. apply binary_round_aux_signed.
  apply Z.div_pos; [|lia].
  destruct (e - e' - _)%Z; [lia | | lia].
  rewrite Z.shiftl_mul_pow2 by lia. apply Z.mul_nonneg_nonneg; [lia|].
  apply Z.pow_nonneg. lia.
Qed.

Lemma SFmul_signed (sx sy : bool) (x y : spec_float) :
  SFsigned sx x -> SFsigned sy y ->
  SF64mul x y = S754_nan \/ SFsigned (xorb sx sy) (SF64mul x y).
Proof.
  destruct x as [s|s| |s m e], y as [s'|s'| |s' m' e']; cbn; try contradiction;
    intros <- <-; auto.
  right. apply binary_round_aux_signed. lia.
Qed.

Lemma float_negative_signed (x : float) : (x <? 0) = true -> SFsigned true (Prim2SF x).
Proof.
  rewrite ltb_spec. change (Prim2SF 0) with (S754_zero false).
  destruct (Prim2SF x) as [s|s| |s m e]; cbn; try discriminate; now destruct s.
Qed.

Lemma float_positive_signed (x : float) : (0 <? x) = true -> SFsigned false (Prim2SF x).
Proof.
  rewrite ltb_spec. change (Prim2SF 0) with (S754_zero false).
  destruct (Prim2SF x) as [s|s| |s m e]; cbn; try discriminate; now destruct s.
Qed.

Lemma float_signed_not_positive (x : float) :
  Prim2SF x = S754_nan \/ SFsigned true (Prim2SF x) -> (0 <? x) = false.
Proof.
  rewrite ltb_spec. change (Prim2SF 0) with (S754_zero false).
  intros [-> | S]; [reflexivity|].
  destruct (Prim2SF x) as [s|s| |s m e]; cbn in *; subst; try contradiction; reflexivity.
Qed.

Lemma float_signed_not_negative (x : float) :
  Prim2SF x = S754_nan \/ SFsigned false (Prim2SF x) -> (x <? 0) = false.
Proof.
  rewrite ltb_spec. change (Prim2SF 0) with (S754_zero false).
  intros [-> | S]; [reflexivity|].
  destruct (Prim2SF x) as [s|s| |s m e]; cbn in *; subst; try contradiction; reflexivity.
Qed.

(** The sign of a share of a positive total, times a positive budget, is
    the sign of the numerator, unless the result is NaN. *)
Lemma float_share_signed (sr : bool) (r t b : float) :
  SFsigned sr (Prim2SF r) -> (0 <? t) = true -> (0 <? b) = true ->
  Prim2SF (r / t * b) = S754_nan \/ SFsigned sr (Prim2SF (r / t * b)).
Proof.
  intros R T B. apply float_positive_signed in T, B.
  rewrite mul_spec, div_spec.
  destruct (SFdiv_signed sr false _ _ R T) as [-> | Q]; [now left|].
  rewrite xorb_false_r in Q.
  destruct (SFmul_signed sr false _ _ Q B) as [E | M]; [now left|].
  rewrite xorb_false_r in M. now right.
Qed.

End Binary64Sign.

(** ** More facts about the pandas operations *)

Section MoreListFacts.
Variable T : Type.
Implicit Types (a b x : T) (l : list T).

Lemma precedes_filter_inv (f : T -> bool) a b l :
  precedes a b (filter f l) -> precedes a b l /\ f a = true /\ f b = true.
Proof.
  induction l as [|x l IH]; cbn; [inversion 1|].
  destruct (f x) eqn:E.
  - inversion 1 as [l' Hb|x' l' P]; subst.
    + apply filter_In in Hb as [Hb Fb]. repeat split; auto. now apply precedes_here.
    + destruct (IH P) as (P' & Fa & Fb). repeat split; auto. now apply precedes_later.
  - intros P. destruct (IH P) as (P' & Fa & Fb). repeat split; auto.
    now apply precedes_later.
Qed.

Lemma StronglySorted_app (R : T -> T -> Prop) l l' :
  StronglySorted R l -> StronglySorted R l' ->
  (forall a b, In a l -> In b l' -> R a b) ->
  StronglySorted R (l ++ l').
Proof.
  intros S S' H. induction S as [|x l S IH Hx]; cbn; [exact S'|].
  constructor.
  - apply IH. intros a b Ha Hb. apply H; cbn; auto.
  - apply Forall_app. split; [exact Hx|].
    apply Forall_forall. intros b Hb. apply H; cbn; auto.
Qed.

(** In a sorted list, each of the first [n] elements stands in the order
    relation to each of the others. *)
Lemma StronglySorted_firstn_skipn (R : T -> T -> Prop) l n a b :
  StronglySorted R l -> In a (firstn n l) -> In b (skipn n l) -> R a b.
Proof.
  intros S. revert n. induction S as [|x l S IH Hx]; intros [|n]; cbn;
    try contradiction.
  intros [<- | Ha] Hb.
  - rewrite Forall_forall in Hx. apply Hx.
    rewrite <- (firstn_skipn n l). apply in_or_app. now right.
  - now apply (IH n).
Qed.

Lemma flat_map_nil (U : Type) (ks : list U) :
  flat_map (fun _ : U => @nil T) ks = [].
Proof. induction ks; cbn; auto. Qed.

End MoreListFacts.

Section SortOrderFacts.
Context {num : Type} {A : Arith num}.
Variable R : Type.
Variable by_ : R -> num.
Implicit Types (a b x : R) (rows : list R).

Hypothesis num_lt_asym : forall x y : num, num_lt x y = true -> num_lt y x = false.
Hypothesis num_lt_na : forall x y : num,
  num_isna x = true -> num_lt x y = false /\ num_lt y x = false.
Hypothesis num_not_lt_trans : forall x y z : num,
  num_isna x = false -> num_isna y = false -> num_isna z = false ->
  num_lt x y = false -> num_lt y z = false -> num_lt x z = false.

Lemma in_order_trans ascending a b c :
  num_isna (by_ a) = false -> num_isna (by_ b) = false -> num_isna (by_ c) = false ->
  in_order by_ ascending a b -> in_order by_ ascending b c ->
  in_order by_ ascending a c.
Proof.
  unfold in_order, strictly_before. intros Na Nb Nc.
  destruct ascending; intros H1 H2.
  - now apply (num_not_lt_trans _ _ _ Nc Nb Na).
  - now apply (num_not_lt_trans _ _ _ Na Nb Nc).
Qed.

Lemma insert_row_StronglySorted ascending x rows :
  num_isna (by_ x) = false ->
  Forall (fun r => num_isna (by_ r) = false) rows ->
  StronglySorted (in_order by_ ascending) rows ->
  StronglySorted (in_order by_ ascending) (insert_row by_ ascending x rows).
Proof.
  intros Nx N S. induction S as [|y rows S IH Hy]; cbn; [repeat constructor|].
  inversion_clear N as [|? ? Ny N'].
  destruct (strictly_before by_ ascending y x) eqn:E.
  - constructor; [now apply IH|].
    apply Forall_forall. intros z Hz.
    apply (Permutation_in _ (insert_row_Permutation by_ ascending x rows)) in Hz.
    destruct Hz as [<- | Hz].
    + unfold in_order. unfold strictly_before in *.
      destruct ascending; now apply num_lt_asym.
    + rewrite Forall_forall in Hy. now apply Hy.
  - constructor; [now constructor|].
    constructor; [exact E|].
    rewrite Forall_forall in *. intros z Hz.
    apply in_order_trans with (b := y); auto.
Qed.

Lemma stable_sort_StronglySorted ascending rows :
  Forall (fun r => num_isna (by_ r) = false) rows ->
  StronglySorted (in_order by_ ascending) (stable_sort by_ ascending rows).
Proof.
  induction 1 as [|x rows Nx N IH]; cbn; [constructor|].
  apply insert_row_StronglySorted; auto.
  rewrite Forall_forall in *. intros r Hr. apply N.
  now apply (Permutation_in _ (stable_sort_Permutation by_ ascending rows)).
Qed.

Lemma na_rows_StronglySorted ascending rows :
  Forall (fun r => num_isna (by_ r) = true) rows ->
  StronglySorted (in_order by_ ascending) rows.
Proof.
  induction 1 as [|x rows Nx N IH]; constructor; auto.
  rewrite Forall_forall in *. intros z Hz.
  apply in_order_na; auto.
Qed.

Lemma sort_values_StronglySorted ascending rows :
  StronglySorted (in_order by_ ascending) (sort_values by_ ascending rows).
Proof.
  unfold sort_values. apply StronglySorted_app.
  - apply stable_sort_StronglySorted. apply Forall_forall. intros r Hr.
    apply filter_In in Hr as [_ Hr]. unfold notna in Hr.
    now destruct (num_isna (by_ r)).
  - apply na_rows_StronglySorted. apply Forall_forall. intros r Hr.
    now apply filter_In in Hr.
  - intros a b _ Hb. apply in_order_na; auto. now apply filter_In in Hb.
Qed.

End SortOrderFacts.

Section SelectionFacts.
Context {num : Type} {A : Arith num}.
Variable R : Type.
Variable by_ : R -> num.

Lemma sort_values_length (ascending : bool) (rows : list R) :
  List.length (sort_values by_ ascending rows) = List.length rows.
Proof. apply Permutation_length, sort_values_Permutation. Qed.

Lemma selection_covers (ascending : bool) (k : nat) (rows : list R) :
  (List.length rows <= k)%nat ->
  Permutation (firstn k (sort_values by_ ascending rows)) rows.
Proof.
  intros L. rewrite firstn_all2 by (now rewrite sort_values_length).
  apply sort_values_Permutation.
Qed.

Lemma selection_incl (ascending : bool) (k : nat) (rows : list R) :
  incl (firstn k (sort_values by_ ascending rows)) rows.
Proof.
  intros r Hr. apply (Permutation_in _ (sort_values_Permutation by_ ascending rows)).
  rewrite <- (firstn_skipn k (sort_values by_ ascending rows)).
  apply in_or_app. now left.
Qed.

End SelectionFacts.

(** ** The entries of the metrics dictionary *)

Lemma unique_first_appearance (a b : string) (values : list string) :
  precedes a b (unique values) ->
  exists before after,
    values = before ++ a :: after
    /\ ~ In a before /\ ~ In b before /\ In b after.
Proof.
  induction values as [|v values IH]; cbn; [inversion 1|].
  inversion 1 as [l Hb|x l P]; subst.
  - exists [], values. apply filter_In in Hb as [Hb _]. rewrite unique_In in Hb.
    repeat split; auto.
  - apply precedes_filter_inv in P as (P & Fa & Fb).
    destruct (IH P) as (before & after & -> & Na & Nb & Hb).
    exists (v :: before), after. repeat split; auto.
    + intros [-> | H']; [|contradiction]. now rewrite String.eqb_refl in Fa.
    + intros [-> | H']; [|contradiction]. now rewrite String.eqb_refl in Fb.
Qed.

Section GroupFacts.
Context {num : Type}.
Implicit Types (rows : list (Campaign.t num)) (keys : list string).

Lemma group_of_absent (r : Campaign.t num) rows keys :
  ~ In (Campaign.Channel r) keys ->
  flat_map (group_of (r :: rows)) keys = flat_map (group_of rows) keys.
Proof.
  induction keys as [|k keys IH]; cbn [flat_map]; [reflexivity|]. intros N.
  rewrite IH by (intros H; apply N; now right).
  unfold group_of at 1. cbn [filter].
  destruct (String.eqb_spec (Campaign.Channel r) k) as [E | _]; [|reflexivity].
  exfalso. apply N. now left.
Qed.

Lemma group_of_present (r : Campaign.t num) rows keys :
  NoDup keys -> In (Campaign.Channel r) keys ->
  Permutation (flat_map (group_of (r :: rows)) keys) (r :: flat_map (group_of rows) keys).
Proof.
  induction 1 as [|k keys Nk ND IH]; cbn [flat_map]; [contradiction|]. intros H.
  unfold group_of at 1. cbn [filter]. fold (group_of rows k).
  destruct (String.eqb_spec (Campaign.Channel r) k) as [E | NE].
  - subst k. now rewrite group_of_absent.
  - destruct H as [E | H]; [congruence|].
    rewrite (IH H). symmetry. apply Permutation_middle.
Qed.

(** The groups of distinct keys that cover the channels of the rows hold
    every row exactly once. *)
Lemma groups_partition rows keys :
  NoDup keys ->
  (forall r, In r rows -> In (Campaign.Channel r) keys) ->
  Permutation (flat_map (group_of rows) keys) rows.
Proof.
  intros ND. induction rows as [|r rows IH]; intros C.
  - unfold group_of. cbn. now rewrite flat_map_nil.
  - rewrite group_of_present; [|exact ND|apply C; now left].
    constructor. apply IH. intros r' H. apply C. now right.
Qed.

End GroupFacts.

Section DictionaryProperties.
Context {num : Type} {A : Arith num}.

(** X1: [calculate_roi_metrics] stores and returns a dictionary with exactly
    one entry per channel that occurs in the data, the channels in order of
    first appearance, and leaves the data frame as it is. *)
Theorem results_have_one_entry_per_channel (self : Analyzer num) :
  exists results,
    calculate_roi_metrics self
    = Returned (results, {| df := df self; channel_metrics := results |})
    /\ NoDup (index results)
    /\ (forall c, In c (index results) <->
                  exists r, In r (df self) /\ Campaign.Channel r = c)
    /\ (forall c1 c2, precedes c1 c2 (index results) ->
          exists before after,
            map Campaign.Channel (df self) = before ++ c1 :: after
            /\ ~ In c1 before /\ ~ In c2 before /\ In c2 after).
Proof.
  exists (roi_results (df self)). split; [apply calculate_roi_metrics_returns|].
  rewrite roi_results_index. split; [apply unique_NoDup|]. split.
  - intros c. rewrite unique_In, in_map_iff. split; intros (r & H1 & H2); eauto.
  - intros c1 c2. apply unique_first_appearance.
Qed.

(** X2: every entry of the dictionary is computed from the rows of its
    channel, and these groups of rows hold every row of the data exactly
    once: no row is dropped and none is counted for two channels. *)
Theorem channel_groups_partition_the_rows (self : Analyzer num) :
  exists results self',
    calculate_roi_metrics self = Returned (results, self')
    /\ (forall c m, In (c, m) results -> m = channel_row (group_of (df self) c))
    /\ Permutation (flat_map (group_of (df self)) (index results)) (df self).
Proof.
  eexists _, _. split; [apply calculate_roi_metrics_returns|]. split.
  - intros c m H. now apply roi_results_In in H.
  - rewrite roi_results_index. apply groups_partition; [apply unique_NoDup|].
    intros r H. apply unique_In. now apply in_map.
Qed.

(** X3: the result of [calculate_roi_metrics] and the object it leaves do
    not depend on the dictionary the object held before, so calculating twice
    is calculating once, and calculating before [generate_recommendations]
    (as [main] does) changes neither its result nor the object it leaves. *)
Theorem recalculation_changes_nothing (self : Analyzer num) :
  (forall stale,
     calculate_roi_metrics {| df := df self; channel_metrics := stale |}
     = calculate_roi_metrics self)
  /\ (_ <- calculate_roi_metrics ;; calculate_roi_metrics) self
     = calculate_roi_metrics self
  /\ (_ <- calculate_roi_metrics ;; generate_recommendations) self
     = generate_recommendations self.
Proof.
  split; [reflexivity|]. split.
  - unfold bind at 1. rewrite calculate_roi_metrics_returns.
    now rewrite !calculate_roi_metrics_returns.
  - unfold bind at 1. rewrite calculate_roi_metrics_returns.
    unfold generate_recommendations, bind at 1 4.
    now rewrite !calculate_roi_metrics_returns.
Qed.

(** X4: [identify_optimization_opportunities] needs the dictionary: on a
    new analyzer it raises [KeyError('ROI')] whatever the data, and so does
    [generate_recommendations] exactly when the data frame has no row;
    otherwise [generate_recommendations] returns and leaves the dictionary
    filled. *)
Theorem optimization_needs_the_dictionary :
  (forall (budget : num) rows,
     identify_optimization_opportunities budget (init rows) = Raised (KeyError "ROI"))
  /\ (forall self : Analyzer num,
        generate_recommendations self = Raised (KeyError "ROI") <-> df self = [])
  /\ (forall self : Analyzer num,
        df self <> [] <->
        exists report,
          generate_recommendations self
          = Returned (report, {| df := df self; channel_metrics := roi_results (df self) |})).
Proof.
  split; [reflexivity|].
  assert (E : forall self : Analyzer num, df self = [] ->
                generate_recommendations self = Raised (KeyError "ROI")).
  { intros self E. unfold generate_recommendations, bind at 1.
    rewrite calculate_roi_metrics_returns. unfold bind at 1.
    rewrite identify_optimization_opportunities_empty; [reflexivity|].
    cbn. now rewrite E. }
  split; intros self; split.
  - intros H. destruct (df self) as [|r rows] eqn:D; [reflexivity|].
    destruct (generate_recommendations_returns self) as (report & R & _);
      [rewrite D; discriminate|]. congruence.
  - apply E.
  - intros N. destruct (generate_recommendations_returns self N) as (report & R & _).
    now exists report.
  - intros [report R] D. rewrite (E self D) in R. discriminate.
Qed.

End DictionaryProperties.

(** ** The plan frame *)

Lemma float_sort_values_StronglySorted (R : Type) (by_ : R -> float) (ascending : bool)
  (rows : list R) :
  StronglySorted (in_order by_ ascending) (sort_values by_ ascending rows).
Proof.
  apply sort_values_StronglySorted;
    [apply float_ltb_asym | apply float_na_ltb | apply float_not_ltb_trans].
Qed.





Lemma plan_rows (budget : float) (self : Analyzer float) (p : string * PlanRow float) :
  In p (map (fun entry =>
               (fst entry, plan_row (total_roi (channel_metrics self)) budget (snd entry)))
            (sorted_metrics (channel_metrics self))) ->
  In (fst p, metrics (snd p)) (channel_metrics self)
  /\ snd p = plan_row (total_roi (channel_metrics self)) budget (metrics (snd p)).
Proof.
  intros H. apply in_map_iff in H as ([c m] & <- & H). cbn. split; [|reflexivity].
  now apply (Permutation_in _ (sorted_metrics_Permutation _)).
Qed.

(** X6: when the ROI column of a non-empty dictionary sums to zero, no
    channel of the plan has a finite optimal allocation: each one is an
    infinity or NaN, whatever the budget. *)
Theorem zero_roi_sum_leaves_no_finite_allocation (budget : float) (self : Analyzer float) :
  channel_metrics self <> [] ->
  (total_roi (channel_metrics self) =? 0)%float = true ->
  exists plan,
    identify_optimization_opportunities budget self = Returned (plan, self)
    /\ forall p, In p plan -> PrimFloat.is_finite (OptimalAllocation (snd p)) = false.
Proof.
  intros N Z. eexists. split; [now apply identify_optimization_opportunities_returns|].
  intros p H. apply plan_rows in H as [_ ->]. cbn.
  now apply float_div_0_mul_not_finite.
Qed.

Lemma zero_roi_sum_leaves_no_finite_allocation_witness :
  exists plan,
    identify_optimization_opportunities 100000%float (analyzed offsetting_rows)
    = Returned (plan, analyzed offsetting_rows)
    /\ forall p, In p plan -> PrimFloat.is_finite (OptimalAllocation (snd p)) = false.
Proof.
  apply (zero_roi_sum_leaves_no_finite_allocation 100000%float (analyzed offsetting_rows)).
  - discriminate.
  - vm_compute. reflexivity.
Defined.

(** X7: in the plan of a non-empty dictionary, a channel whose total spend
    is zero never has a finite expected revenue or revenue increase: both are
    an infinity or NaN, whatever the budget; and both are NaN when its ROI is
    zero as well. *)
Theorem zero_spend_leaves_no_finite_expectation (budget : float) (self : Analyzer float) :
  channel_metrics self <> [] ->
  exists plan,
    identify_optimization_opportunities budget self = Returned (plan, self)
    /\ forall p, In p plan ->
         (TotalSpend (metrics (snd p)) =? 0)%float = true ->
         PrimFloat.is_finite (ExpectedRevenue (snd p)) = false
         /\ PrimFloat.is_finite (RevenueIncrease (snd p)) = false
         /\ ((ROI (metrics (snd p)) =? 0)%float = true ->
             PrimFloat.is_nan (ExpectedRevenue (snd p)) = true
             /\ PrimFloat.is_nan (RevenueIncrease (snd p)) = true).
Proof.
  intros N. eexists. split; [now apply identify_optimization_opportunities_returns|].
  intros p H Z. apply plan_rows in H as [_ ->]. cbn.
  assert (F : PrimFloat.is_finite
                (ROI (metrics (snd p)) / total_roi (channel_metrics self) * budget
                 / TotalSpend (metrics (snd p)) * TotalRevenue (metrics (snd p)))%float
              = false) by now apply float_div_0_mul_not_finite.
  split; [exact F|]. split; [now apply float_sub_not_finite|].
  intros R.
  assert (E := float_zero_share_over_zero_spend
                 (total_roi (channel_metrics self)) budget
                 (TotalRevenue (metrics (snd p))) R Z).
  split; [exact E | now apply float_nan_sub].
Qed.

Lemma zero_spend_leaves_no_finite_expectation_witness :
  exists plan,
    identify_optimization_opportunities 100000%float (analyzed organic_rows)
    = Returned (plan, analyzed organic_rows)
    /\ forall p, In p plan ->
         (TotalSpend (metrics (snd p)) =? 0)%float = true ->
         PrimFloat.is_finite (ExpectedRevenue (snd p)) = false
         /\ PrimFloat.is_finite (RevenueIncrease (snd p)) = false
         /\ ((ROI (metrics (snd p)) =? 0)%float = true ->
             PrimFloat.is_nan (ExpectedRevenue (snd p)) = true
             /\ PrimFloat.is_nan (RevenueIncrease (snd p)) = true).
Proof.
  apply (zero_spend_leaves_no_finite_expectation 100000%float (analyzed organic_rows)).
  discriminate.
Defined.

(** A plan row of an aggregated channel without spend: NaN expected revenue
    and NaN revenue increase. *)
Lemma unpaid_plan_row (budget : float) (rows : list (Campaign.t float))
  (p : string * PlanRow float) :
  In p (map (fun entry =>
               (fst entry,
                plan_row (total_roi (channel_metrics (analyzed rows))) budget (snd entry)))
            (sorted_metrics (channel_metrics (analyzed rows)))) ->
  (TotalSpend (metrics (snd p)) =? 0)%float = true ->
  PrimFloat.is_nan (ExpectedRevenue (snd p)) = true
  /\ PrimFloat.is_nan (RevenueIncrease (snd p)) = true.
Proof.
  intros H Z. apply plan_rows in H as [H E].
  assert (R : (ROI (metrics (snd p)) =? 0)%float = true).
  { cbn [analyzed channel_metrics] in H. apply roi_results_In in H as [_ M].
    rewrite M in Z |- *. revert Z.
    unfold channel_row; cbn [TotalSpend ROI]. cbn [num_lt binary64].
    rewrite float_lit_0. intros Z. apply float_zero_not_positive in Z.
    now rewrite Z. }
  rewrite E. cbn.
  assert (X := float_zero_share_over_zero_spend
                 (total_roi (channel_metrics (analyzed rows))) budget
                 (TotalRevenue (metrics (snd p))) R Z).
  split; [exact X | now apply float_nan_sub].
Qed.

(** X8: in the plan of the dictionary [calculate_roi_metrics] builds, every
    channel whose total spend is zero has NaN as its expected revenue and as
    its revenue increase, whatever the data and the budget: its ROI is 0 by the
    guard of the aggregation, its share is 0 or NaN, and a division by its
    spend follows. *)
Theorem unpaid_channels_expect_nan (budget : float) (rows : list (Campaign.t float)) :
  rows <> [] ->
  exists plan,
    identify_optimization_opportunities budget (analyzed rows)
    = Returned (plan, analyzed rows)
    /\ forall p, In p plan ->
         (TotalSpend (metrics (snd p)) =? 0)%float = true ->
         PrimFloat.is_nan (ExpectedRevenue (snd p)) = true
         /\ PrimFloat.is_nan (RevenueIncrease (snd p)) = true.
Proof.
  intros N.
  assert (N' : channel_metrics (analyzed rows) <> []) by (now apply roi_results_nonempty).
  eexists. split; [now apply identify_optimization_opportunities_returns|].
  intros p H Z. now apply (unpaid_plan_row budget rows).
Qed.

Lemma unpaid_channels_expect_nan_witness :
  exists plan,
    identify_optimization_opportunities 100000%float (analyzed organic_rows)
    = Returned (plan, analyzed organic_rows)
    /\ forall p, In p plan ->
         (TotalSpend (metrics (snd p)) =? 0)%float = true ->
         PrimFloat.is_nan (ExpectedRevenue (snd p)) = true
         /\ PrimFloat.is_nan (RevenueIncrease (snd p)) = true.
Proof.
  apply (unpaid_channels_expect_nan 100000%float (rows := organic_rows)).
  discriminate.
Defined.

(** X9: in the plan of a non-empty dictionary whose ROI column sums to a
    number other than zero, with a finite budget, every channel whose ROI is
    zero is allocated zero. *)
Theorem zero_roi_is_allocated_nothing (budget : float) (self : Analyzer float) :
  channel_metrics self <> [] ->
  PrimFloat.is_nan (total_roi (channel_metrics self)) = false ->
  (total_roi (channel_metrics self) =? 0)%float = false ->
  PrimFloat.is_finite budget = true ->
  exists plan,
    identify_optimization_opportunities budget self = Returned (plan, self)
    /\ forall p, In p plan ->
         (ROI (metrics (snd p)) =? 0)%float = true ->
         (OptimalAllocation (snd p) =? 0)%float = true.
Proof.
  intros N Nt Zt Fb. eexists.
  split; [now apply identify_optimization_opportunities_returns|].
  intros p H R. apply plan_rows in H as [_ ->]. cbn.
  now apply float_zero_share.
Qed.

Lemma zero_roi_is_allocated_nothing_witness :
  exists plan,
    identify_optimization_opportunities 100000%float (analyzed organic_rows)
    = Returned (plan, analyzed organic_rows)
    /\ forall p, In p plan ->
         (ROI (metrics (snd p)) =? 0)%float = true ->
         (OptimalAllocation (snd p) =? 0)%float = true.
Proof.
  apply (@zero_roi_is_allocated_nothing 100000%float (analyzed organic_rows)).
  - discriminate.
  - vm_compute. reflexivity.
  - vm_compute. reflexivity.
  - vm_compute. reflexivity.
Defined.

(** X10: in the plan of a non-empty dictionary whose ROI column sums to a
    positive total, with a positive budget, the optimal allocation follows the
    sign of the ROI: a channel with a negative ROI never gets a positive
    allocation and a channel with a positive ROI never gets a negative one. *)
Theorem allocation_follows_the_sign_of_roi (budget : float) (self : Analyzer float) :
  channel_metrics self <> [] ->
  (0 <? total_roi (channel_metrics self))%float = true ->
  (0 <? budget)%float = true ->
  exists plan,
    identify_optimization_opportunities budget self = Returned (plan, self)
    /\ forall p, In p plan ->
         ((ROI (metrics (snd p)) <? 0)%float = true ->
          (0 <? OptimalAllocation (snd p))%float = false)
         /\ ((0 <? ROI (metrics (snd p)))%float = true ->
             (OptimalAllocation (snd p) <? 0)%float = false).
Proof.
  intros N T B. eexists.
  split; [now apply identify_optimization_opportunities_returns|].
  intros p H. apply plan_rows in H as [_ ->]. cbn. split; intros R.
  - apply float_signed_not_positive, float_share_signed; auto.
    now apply float_negative_signed.
  - apply float_signed_not_negative, float_share_signed; auto.
    now apply float_positive_signed.
Qed.

Lemma allocation_follows_the_sign_of_roi_witness :
  exists plan,
    identify_optimization_opportunities 10000%float (analyzed (scenario_rows 9000 7000))
    = Returned (plan, analyzed (scenario_rows 9000 7000))
    /\ forall p, In p plan ->
         ((ROI (metrics (snd p)) <? 0)%float = true ->
          (0 <? OptimalAllocation (snd p))%float = false)
         /\ ((0 <? ROI (metrics (snd p)))%float = true ->
             (OptimalAllocation (snd p) <? 0)%float = false).
Proof.
  apply (@allocation_follows_the_sign_of_roi 10000%float
           (analyzed (scenario_rows 9000 7000))).
  - discriminate.
  - vm_compute. reflexivity.
  - vm_compute. reflexivity.
Defined.

(** ** The report *)

(** X11: when the total spend of the data is zero, the ROI improvement that
    [generate_recommendations] prints is never a finite number: the division
    by the spend gives an infinity or NaN. *)
Theorem zero_total_spend_leaves_no_finite_improvement (self : Analyzer float) :
  df self <> [] ->
  exists report self',
    generate_recommendations self = Returned (report, self')
    /\ ((pd_sum (column (@TotalSpend float) (channel_metrics self')) =? 0)%float = true ->
        PrimFloat.is_finite (roi_improvement report) = false).
Proof.
  intros N.
  destruct (generate_recommendations_returns self N) as (report & E & _ & _ & _ & _ & I).
  exists report. eexists. split; [exact E|]. cbn [channel_metrics]. intros Z.
  rewrite I. cbn [num_mul num_div binary64]. now apply float_div_0_mul_not_finite.
Qed.

Lemma zero_total_spend_leaves_no_finite_improvement_witness :
  exists report self',
    generate_recommendations (init unpaid_rows) = Returned (report, self')
    /\ ((pd_sum (column (@TotalSpend float) (channel_metrics self')) =? 0)%float = true ->
        PrimFloat.is_finite (roi_improvement report) = false).
Proof.
  apply (@zero_total_spend_leaves_no_finite_improvement (init unpaid_rows)).
  discriminate.
Defined.

Section SelectionProperties.
Context {num : Type} {A : Arith num}.

Lemma plan_length (budget : num) (self self' : Analyzer num) (plan : Frame (PlanRow num)) :
  identify_optimization_opportunities budget self = Returned (plan, self') ->
  List.length plan = List.length (channel_metrics self).
Proof.
  intros E. destruct (channel_metrics self) as [|e results] eqn:D.
  - now rewrite identify_optimization_opportunities_empty in E.
  - rewrite identify_optimization_opportunities_returns in E by (rewrite D; discriminate).
    injection E as <- _. rewrite length_map, <- D.
    apply Permutation_length, sorted_metrics_Permutation.
Qed.

(** X12: [generate_recommendations] lists as top performers and as channels
    needing review rows of the plan only, three and two of them, or all of
    them when there are fewer channels; with one or two channels in the data,
    every channel is listed both as a top performer and as needing review. *)
Theorem selections_cover_small_plans (self : Analyzer num) :
  df self <> [] ->
  exists report self',
    generate_recommendations self = Returned (report, self')
    /\ List.length (optimal_df report)
       = List.length (unique (map Campaign.Channel (df self)))
    /\ incl (top_performers report) (optimal_df report)
    /\ incl (underperformers report) (optimal_df report)
    /\ List.length (top_performers report) = Nat.min 3 (List.length (optimal_df report))
    /\ List.length (underperformers report) = Nat.min 2 (List.length (optimal_df report))
    /\ ((List.length (optimal_df report) <= 2)%nat ->
        Permutation (top_performers report) (optimal_df report)
        /\ Permutation (underperformers report) (optimal_df report)).
Proof.
  intros N.
  destruct (generate_recommendations_returns self N)
    as (report & E & I & T & U & _ & _).
  exists report. eexists. split; [exact E|].
  rewrite T, U. unfold nlargest, nsmallest.
  rewrite !length_firstn, !sort_values_length.
  split.
  - rewrite (plan_length _ _ I). cbn [channel_metrics].
    rewrite <- roi_results_index. unfold index. now rewrite length_map.
  - repeat split; try apply selection_incl.
    + apply selection_covers. lia.
    + now apply selection_covers.
Qed.

End SelectionProperties.

Lemma selections_cover_small_plans_witness :
  exists report self',
    generate_recommendations (init (scenario_rows 9000 7000)) = Returned (report, self')
    /\ List.length (optimal_df report)
       = List.length (unique (map Campaign.Channel (df (init (scenario_rows 9000 7000)))))
    /\ incl (top_performers report) (optimal_df report)
    /\ incl (underperformers report) (optimal_df report)
    /\ List.length (top_performers report) = Nat.min 3 (List.length (optimal_df report))
    /\ List.length (underperformers report) = Nat.min 2 (List.length (optimal_df report))
    /\ ((List.length (optimal_df report) <= 2)%nat ->
        Permutation (top_performers report) (optimal_df report)
        /\ Permutation (underperformers report) (optimal_df report)).
Proof.
  apply (@selections_cover_small_plans float binary64 (init (scenario_rows 9000 7000))).
  discriminate.
Defined.

(** X13: in the plan of a non-empty dictionary, no channel outside the [k]
    top rows has an ROI greater than a channel among them, and no channel
    outside the [k] bottom rows has an ROI less than a channel among them. *)
Theorem selections_hold_the_extremes (k : nat) (budget : float) (self : Analyzer float) :
  channel_metrics self <> [] ->
  exists plan,
    identify_optimization_opportunities budget self = Returned (plan, self)
    /\ forall a b, In b plan ->
         (In a (nlargest plan_roi k plan) -> ~ In b (nlargest plan_roi k plan) ->
          (plan_roi a <? plan_roi b)%float = false)
         /\ (In a (nsmallest plan_roi k plan) -> ~ In b (nsmallest plan_roi k plan) ->
             (plan_roi b <? plan_roi a)%float = false).
Proof.
  intros N. eexists. split; [now apply identify_optimization_opportunities_returns|].
  set (plan := map _ _). intros a b Hb.
  assert (S : forall ascending, ~ In b (firstn k (sort_values plan_roi ascending plan)) ->
                In b (skipn k (sort_values plan_roi ascending plan))).
  { intros ascending Nb.
    apply (Permutation_in _ (Permutation_sym (sort_values_Permutation plan_roi ascending plan)))
      in Hb.
    rewrite <- (firstn_skipn k (sort_values plan_roi ascending plan)) in Hb.
    apply in_app_or in Hb. tauto. }
  unfold nlargest, nsmallest. split; intros Ha Nb.
  - apply (@StronglySorted_firstn_skipn _ _ _ k a b
             (float_sort_values_StronglySorted plan_roi false plan) Ha (S _ Nb)).
  - apply (@StronglySorted_firstn_skipn _ _ _ k a b
             (float_sort_values_StronglySorted plan_roi true plan) Ha (S _ Nb)).
Qed.

Lemma selections_hold_the_extremes_witness :
  exists plan,
    identify_optimization_opportunities 100000%float (analyzed tied_rows)
    = Returned (plan, analyzed tied_rows)
    /\ forall a b, In b plan ->
         (In a (nlargest plan_roi 2 plan) -> ~ In b (nlargest plan_roi 2 plan) ->
          (plan_roi a <? plan_roi b)%float = false)
         /\ (In a (nsmallest plan_roi 2 plan) -> ~ In b (nsmallest plan_roi 2 plan) ->
             (plan_roi b <? plan_roi a)%float = false).
Proof.
  apply (@selections_hold_the_extremes 2 100000%float (analyzed tied_rows)).
  discriminate.
Defined.

Section SortAgain.
Context {num : Type} {A : Arith num}.
Variables R U : Type.
Variable by_ : R -> num.

Lemma insert_row_head ascending (x : R) (rows : list R) :
  Forall (in_order by_ ascending x) rows ->
  insert_row by_ ascending x rows = x :: rows.
Proof.
  destruct 1 as [|y rows Hy _]; cbn; [reflexivity|].
  unfold in_order in Hy. now rewrite Hy.
Qed.

(** Sorting rows that are in order leaves them as they are. *)
Lemma stable_sort_sorted ascending (rows : list R) :
  StronglySorted (in_order by_ ascending) rows ->
  stable_sort by_ ascending rows = rows.
Proof.
  induction 1 as [|x rows S IH Hx]; cbn; [reflexivity|].
  rewrite IH. now apply insert_row_head.
Qed.

Lemma filter_all (f : R -> bool) (rows : list R) :
  Forall (fun r => f r = true) rows -> filter f rows = rows.
Proof. induction 1 as [|x rows Hx _ IH]; cbn; [reflexivity|]. now rewrite Hx, IH. Qed.

Lemma filter_none (f : R -> bool) (rows : list R) :
  Forall (fun r => f r = false) rows -> filter f rows = [].
Proof. induction 1 as [|x rows Hx _ IH]; cbn; [reflexivity|]. now rewrite Hx. Qed.

Variable key : U -> num.
Variable P : U -> R.
Hypothesis key_P : forall u, by_ (P u) = key u.

Lemma insert_row_map ascending (u : U) (rows : list U) :
  insert_row by_ ascending (P u) (map P rows) = map P (insert_row key ascending u rows).
Proof.
  induction rows as [|v rows IH]; cbn; [reflexivity|].
  unfold strictly_before. rewrite !key_P.
  destruct ascending; destruct (num_lt _ _); cbn; now rewrite ?IH.
Qed.

Lemma stable_sort_map ascending (rows : list U) :
  stable_sort by_ ascending (map P rows) = map P (stable_sort key ascending rows).
Proof.
  induction rows as [|u rows IH]; cbn; [reflexivity|].
  now rewrite IH, insert_row_map.
Qed.

Lemma filter_map_key (f : num -> bool) (rows : list U) :
  filter (fun r => f (by_ r)) (map P rows) = map P (filter (fun u => f (key u)) rows).
Proof.
  induction rows as [|u rows IH]; cbn; [reflexivity|].
  rewrite key_P. destruct (f (key u)); cbn; now rewrite IH.
Qed.

Lemma sort_values_map ascending (rows : list U) :
  sort_values by_ ascending (map P rows) = map P (sort_values key ascending rows).
Proof.
  unfold sort_values. rewrite map_app, <- stable_sort_map.
  now rewrite (filter_map_key notna), (filter_map_key num_isna).
Qed.

End SortAgain.

Section SortIdempotent.
Context {num : Type} {A : Arith num}.
Variable R : Type.
Variable by_ : R -> num.

Hypothesis num_lt_asym : forall x y : num, num_lt x y = true -> num_lt y x = false.
Hypothesis num_not_lt_trans : forall x y z : num,
  num_isna x = false -> num_isna y = false -> num_isna z = false ->
  num_lt x y = false -> num_lt y z = false -> num_lt x z = false.

(** Sorting a sorted frame again, in the same direction, changes nothing. *)
Lemma sort_values_idempotent ascending (rows : list R) :
  sort_values by_ ascending (sort_values by_ ascending rows)
  = sort_values by_ ascending rows.
Proof.
  unfold sort_values at 1.
  set (present := stable_sort by_ ascending (filter (fun r => notna (by_ r)) rows)).
  set (missing := filter (fun r => num_isna (by_ r)) rows).
  assert (Hp : Forall (fun r => num_isna (by_ r) = false) present).
  { apply Forall_forall. intros r Hr.
    apply (Permutation_in _ (stable_sort_Permutation by_ ascending _)) in Hr.
    apply filter_In in Hr as [_ Hr]. unfold notna in Hr.
    now destruct (num_isna (by_ r)). }
  assert (Hm : Forall (fun r => num_isna (by_ r) = true) missing).
  { apply Forall_forall. intros r Hr. now apply filter_In in Hr. }
  unfold sort_values. fold present missing. rewrite !filter_app.
  rewrite (filter_all (fun r => notna (by_ r)) (rows := present)),
          (filter_none (fun r => notna (by_ r)) (rows := missing)),
          (filter_none (fun r => num_isna (by_ r)) (rows := present)),
          (filter_all (fun r => num_isna (by_ r)) (rows := missing)); auto.
  - rewrite app_nil_r. cbn [app]. f_equal. apply stable_sort_sorted.
    apply stable_sort_StronglySorted; auto.
    apply Forall_forall. intros r Hr. apply filter_In in Hr as [_ Hr].
    unfold notna in Hr. now destruct (num_isna (by_ r)).
  - eapply Forall_impl; [|exact Hm]. cbn. intros r E. unfold notna. now rewrite E.
  - eapply Forall_impl; [|exact Hp]. cbn. intros r E. unfold notna. now rewrite E.
Qed.

End SortIdempotent.

Lemma pd_sum_skips {num : Type} {A : Arith num} (R : Type) (f : R -> num)
  (keep : R -> bool) (rows : list R) :
  (forall r, In r rows -> keep r = false -> num_isna (f r) = true) ->
  pd_sum (map f rows) = pd_sum (map f (filter keep rows)).
Proof.
  intros H. unfold pd_sum. f_equal.
  induction rows as [|r rows IH]; cbn; [reflexivity|].
  destruct (keep r) eqn:K; cbn.
  - destruct (notna (f r)); rewrite IH; auto. all: intros r' Hr'; apply H; now right.
  - unfold notna. rewrite (H r) by (auto; now left). cbn.
    apply IH. intros r' Hr'. apply H. now right.
Qed.

(** X14: the top performers that [generate_recommendations] lists are the
    first three rows of the frame it returns, in the same order: the frame is
    already in descending order of ROI and selecting by ROI again does not
    reorder it. *)
Theorem top_performers_are_the_first_rows (self : Analyzer float) :
  df self <> [] ->
  exists report self',
    generate_recommendations self = Returned (report, self')
    /\ top_performers report = firstn 3 (optimal_df report).
Proof.
  intros N.
  destruct (generate_recommendations_returns self N) as (report & E & I & T & _).
  exists report. eexists. split; [exact E|]. rewrite T.
  rewrite identify_optimization_opportunities_returns in I
    by (cbn; now apply roi_results_nonempty).
  injection I as I. rewrite <- I. unfold nlargest, sorted_metrics. f_equal.
  rewrite (sort_values_map plan_roi (fun entry => ROI (snd entry))) by reflexivity.
  f_equal. apply sort_values_idempotent;
    [apply float_ltb_asym | apply float_not_ltb_trans].
Qed.

Lemma top_performers_are_the_first_rows_witness :
  exists report self',
    generate_recommendations (init tied_rows) = Returned (report, self')
    /\ top_performers report = firstn 3 (optimal_df report).
Proof.
  apply (@top_performers_are_the_first_rows (init tied_rows)). discriminate.
Defined.

(** X15: the revenue increase that [generate_recommendations] prints leaves
    out the channels without spend: it is the sum of the revenue increases of
    the channels whose total spend is not zero. *)
Theorem total_increase_skips_unpaid_channels (self : Analyzer float) :
  df self <> [] ->
  exists report self',
    generate_recommendations self = Returned (report, self')
    /\ total_increase report
       = pd_sum (column (@RevenueIncrease float)
                   (filter (fun p => negb (TotalSpend (metrics (snd p)) =? 0)%float)
                           (optimal_df report))).
Proof.
  intros N.
  destruct (generate_recommendations_returns self N) as (report & E & I & _ & _ & T & _).
  exists report. eexists. split; [exact E|]. rewrite T.
  rewrite identify_optimization_opportunities_returns in I
    by (cbn; now apply roi_results_nonempty).
  injection I as I. unfold column. apply pd_sum_skips.
  intros p Hp K. rewrite <- I in Hp.
  apply (unpaid_plan_row (num_lit 100000) (df self)); [exact Hp|].
  now destruct (TotalSpend (metrics (snd p)) =? 0)%float.
Qed.

Lemma total_increase_skips_unpaid_channels_witness :
  exists report self',
    generate_recommendations (init organic_rows) = Returned (report, self')
    /\ total_increase report
       = pd_sum (column (@RevenueIncrease float)
                   (filter (fun p => negb (TotalSpend (metrics (snd p)) =? 0)%float)
                           (optimal_df report))).
Proof.
  apply (@total_increase_skips_unpaid_channels (init organic_rows)). discriminate.
Defined.
